(** * The CycloneDDS packaging recipe (cyclonedds/all/conanfile.py)

    A shallow embedding of the recipe class [CycloneDDSConan]: its declared
    options, the hooks that the package manager calls on it
    ([config_options], [configure], [requirements], [validate], [generate],
    [package], [package_info]) and the properties proved about them.

    The recipe object is mutable and the hooks communicate through it, so
    the hooks are computations in a state-and-exception monad over the
    record [conanfile].  An exception leaves the state as it was when the
    exception was raised, as in Python. *)

From Stdlib Require Import Ascii String.
From stdpp Require Import gmap strings list fin_maps.

Open Scope string_scope.
Open Scope list_scope.

(** ** Exceptions *)

(** The exception classes that can escape from a hook of this recipe. *)
Inductive exc_type : Type :=
| NameError (name : string)
| AttributeError (attr : string)
| ConanException (msg : string)
| ConanInvalidConfiguration (msg : string).

(** An exception together with the line of conanfile.py at which the
    traceback leaves the recipe. *)
Record exception : Type := Exc { exc_what : exc_type; exc_line : nat }.

Inductive result (A : Type) : Type :=
| Ok (a : A)
| Raise (e : exception).

Arguments Ok {A} a.
Arguments Raise {A} e.

(** ** The recipe object *)

(** A path, as the list of the components given to [os.path.join]. *)
Definition path : Type := list string.

Definition os_path_join (base : path) (parts : list string) : path := base ++ parts.

(** [options]: the six declared options.  All are boolean; [fPIC] is the
    only one the recipe ever deletes, so its field is optional. *)
Record Options : Type := {
  shared : bool;
  fPIC : option bool;
  with_ssl : bool;
  with_shm : bool;
  enable_security : bool;
  enable_discovery : bool
}.

(** The value of a component or package property. *)
Inductive property : Type :=
| PStr (s : string)
| PPaths (l : list path).

(** One entry of [cpp_info.components]. *)
Record component : Type := {
  properties : gmap string property;
  libs : list string;
  requires : list string;
  system_libs : list string
}.

(** A freshly created component, as [cpp_info.components[name]] returns it
    on first access. *)
Definition new_component : component :=
  {| properties := ∅; libs := []; requires := []; system_libs := [] |}.

Record CppInfo : Type := {
  info_properties : gmap string property;
  components : gmap string component
}.

(** [tc]: the toolchain object built in [generate]. *)
Record CMakeToolchain : Type := {
  variables : gmap string bool;
  cache_variables : gmap string bool
}.

(** Calls into the package manager's build helpers and file tools, in the
    order in which they are made. *)
Inductive event : Type :=
| EvCheckMinCppstd (cppstd : string)
| EvToolchainGenerate (tc : CMakeToolchain)
| EvCMakeDepsGenerate
| EvCMakeInstall
| EvCopy (pattern : string) (src dst : path)
| EvRmdir (folder : path)
| EvRm (pattern : string) (folder : path).

(** The recipe instance [self].  [settings] is keyed by the dotted names
    that [rm_safe] and [get_safe] take ("os", "compiler",
    "compiler.version", "compiler.cppstd", ...). *)
Record conanfile : Type := {
  settings : gmap string string;
  options : Options;
  source_folder : path;
  package_folder : path;
  declared_requires : list string;
  cpp_info : CppInfo;
  buildenv_info : gmap string (list path);
  runenv_info : gmap string (list path);
  journal : list event
}.

Definition set_settings (f : gmap string string → gmap string string) (s : conanfile) : conanfile :=
  {| settings := f (settings s); options := options s;
     source_folder := source_folder s; package_folder := package_folder s;
     declared_requires := declared_requires s; cpp_info := cpp_info s;
     buildenv_info := buildenv_info s; runenv_info := runenv_info s;
     journal := journal s |}.

Definition set_options (f : Options → Options) (s : conanfile) : conanfile :=
  {| settings := settings s; options := f (options s);
     source_folder := source_folder s; package_folder := package_folder s;
     declared_requires := declared_requires s; cpp_info := cpp_info s;
     buildenv_info := buildenv_info s; runenv_info := runenv_info s;
     journal := journal s |}.

Definition set_declared_requires (f : list string → list string) (s : conanfile) : conanfile :=
  {| settings := settings s; options := options s;
     source_folder := source_folder s; package_folder := package_folder s;
     declared_requires := f (declared_requires s); cpp_info := cpp_info s;
     buildenv_info := buildenv_info s; runenv_info := runenv_info s;
     journal := journal s |}.

Definition set_cpp_info (f : CppInfo → CppInfo) (s : conanfile) : conanfile :=
  {| settings := settings s; options := options s;
     source_folder := source_folder s; package_folder := package_folder s;
     declared_requires := declared_requires s; cpp_info := f (cpp_info s);
     buildenv_info := buildenv_info s; runenv_info := runenv_info s;
     journal := journal s |}.

Definition set_buildenv_info (f : gmap string (list path) → gmap string (list path)) (s : conanfile) : conanfile :=
  {| settings := settings s; options := options s;
     source_folder := source_folder s; package_folder := package_folder s;
     declared_requires := declared_requires s; cpp_info := cpp_info s;
     buildenv_info := f (buildenv_info s); runenv_info := runenv_info s;
     journal := journal s |}.

Definition set_runenv_info (f : gmap string (list path) → gmap string (list path)) (s : conanfile) : conanfile :=
  {| settings := settings s; options := options s;
     source_folder := source_folder s; package_folder := package_folder s;
     declared_requires := declared_requires s; cpp_info := cpp_info s;
     buildenv_info := buildenv_info s; runenv_info := f (runenv_info s);
     journal := journal s |}.

Definition set_journal (f : list event → list event) (s : conanfile) : conanfile :=
  {| settings := settings s; options := options s;
     source_folder := source_folder s; package_folder := package_folder s;
     declared_requires := declared_requires s; cpp_info := cpp_info s;
     buildenv_info := buildenv_info s; runenv_info := runenv_info s;
     journal := f (journal s) |}.

(** ** The monad of hooks *)

Definition M (A : Type) : Type := conanfile → result A * conanfile.

#[global] Instance M_ret : MRet M := λ A a s, (Ok a, s).

#[global] Instance M_bind : MBind M := λ A B k c s,
  match c s with
  | (Ok a, s') => k a s'
  | (Raise e, s') => (Raise e, s')
  end.

Definition raise {A : Type} (what : exc_type) (line : nat) : M A :=
  λ s, (Raise (Exc what line), s).

Definition get_self : M conanfile := λ s, (Ok s, s).

Definition modify (f : conanfile → conanfile) : M unit := λ s, (Ok (), f s).

Definition log (ev : event) : M unit := modify (set_journal (λ j, j ++ [ev])).

(** [when c body]: an [if] statement without [else]. *)
Definition when (c : bool) (body : M unit) : M unit := if c then body else mret ().

(** [for x in xs: body]. *)
Fixpoint for_each {A : Type} (xs : list A) (body : A → M unit) : M unit :=
  match xs with
  | [] => mret ()
  | x :: rest => body x ;; for_each rest body
  end.

(** The outcome and the final state of running a hook. *)
Definition outcome {A : Type} (r : result A * conanfile) : result A := r.1.
Definition final {A : Type} (r : result A * conanfile) : conanfile := r.2.

(** The line at which a run left the recipe with an exception, if it did. *)
Definition raised_line {A : Type} (r : result A) : option nat :=
  match r with
  | Ok _ => None
  | Raise e => Some (exc_line e)
  end.

(** ** Name resolution *)

(** The names bound at module level: the imports of lines 1-18,
    [required_conan_version] and the class itself. *)
Definition module_names : list string :=
  [ "ConanFile"; "check_min_cppstd";
    "CMakeToolchain"; "CMakeDeps"; "CMake"; "cmake_layout";
    "get"; "apply_conandata_patches"; "copy"; "export_conandata_patches";
    "rmdir"; "rm";
    "Version"; "os";
    "required_conan_version"; "CycloneDDSConan" ].

(** The builtins the recipe refers to. *)
Definition builtin_names : list string := [ "str" ].

Definition name_bound (name : string) : bool :=
  bool_decide (name ∈ module_names ++ builtin_names).

(** Evaluating a global name at [line]. *)
Definition global_name (name : string) (line : nat) : M unit :=
  if name_bound name then mret () else raise (NameError name) line.

(** The names bound in the class body, in source order. *)
Definition class_names : list string :=
  [ "name"; "license"; "url"; "homepage"; "description"; "topics";
    "package_type"; "settings"; "options"; "default_options"; "short_paths";
    "_min_cppstd"; "_compilers_minimum_version";
    "export_sources"; "config_options"; "configure"; "layout";
    "requirements"; "validate"; "build_requirements"; "source";
    "generate"; "build"; "package"; "package_info" ].

(** The methods of the class that return a boolean to their caller, with
    their bodies.  The class body defines none: every [def] in it is a hook
    of the package manager, and the two properties return a string and a
    dict. *)
Definition helper_methods : list (string * M bool) := [].

(** [self.<name>()] for a helper that returns a boolean: the attribute is
    looked up first, and a name that neither the class nor its base binds
    raises [AttributeError].  The base class [ConanFile] provides the
    framework attributes ([settings], [options], [cpp_info], ...) and no
    helper: a name with a leading underscore is private to the recipe. *)
Definition call_helper (name : string) (line : nat) : M bool :=
  match list_find (λ m, m.1 = name) helper_methods with
  | Some (_, (_, body)) => body
  | None => raise (AttributeError name) line
  end.

(** [raise ConanInvalidConfiguration(msg)]: the class name is evaluated
    before the exception object can be built. *)
Definition raise_ConanInvalidConfiguration {A : Type} (msg : string) (line : nat) : M A :=
  global_name "ConanInvalidConfiguration" line ;;
  raise (ConanInvalidConfiguration msg) line.

(** ** The package manager's helpers *)

(** The two imported helpers whose results the recipe branches on. *)
Class ConanTools : Type := {
  (** [Version(a) < b] of conan.tools.scm *)
  version_lt : string → string → bool;
  (** whether conan.tools.build.check_min_cppstd accepts the configured
      standard [cppstd] against the minimum [min] *)
  cppstd_at_least : string → string → bool
}.

(** [self.settings.<key>] and [get_safe]. *)
Definition setting (key : string) : M (option string) := λ s, (Ok (settings s !! key), s).

(** [self.settings.rm_safe(key)]. *)
Definition rm_safe (key : string) : M unit := modify (set_settings (delete key)).

(** [self.options.<field>]. *)
Definition option_value {A : Type} (field : Options → A) : M A := λ s, (Ok (field (options s)), s).

(** [str(v)] of a setting. *)
Definition py_str (v : option string) : string := default "None" v.

(** Truth value of a setting or of a table entry: [None] and the empty string
    are false. *)
Definition truthy (v : option string) : bool :=
  match v with
  | Some x => negb (bool_decide (x = ""))
  | None => false
  end.

(** A line break inside a message. *)
Definition newline : string := String "010"%char "".

(** [repr] of a list of strings. *)
Definition py_repr_list (l : list string) : string :=
  "[" +:+ String.concat ", " (map (λ x, "'" +:+ x +:+ "'") l) +:+ "]".

(** The message of the options object for an option that does not exist:
    two lines, the second listing the options that do. *)
Definition option_not_exist_msg (name : string) (existing : list string) : string :=
  "option '" +:+ name +:+ "' doesn't exist" +:+ newline
    +:+ "Possible options are " +:+ py_repr_list existing.

(** The names of the options that are on the options object, in the order of
    their declaration. *)
Definition existing_options (o : Options) : list string :=
  ["shared"]
    ++ match fPIC o with Some _ => ["fPIC"] | None => [] end
    ++ ["with_ssl"; "with_shm"; "enable_security"; "enable_discovery"].

(** The message for [fPIC] once it has been deleted. *)
Definition fPIC_not_exist : string :=
  option_not_exist_msg "fPIC"
    ["shared"; "with_ssl"; "with_shm"; "enable_security"; "enable_discovery"].

(** [del self.options.fPIC]: deleting an option that is no longer there is an
    error of the options object. *)
Definition del_fPIC (line : nat) : M unit := λ s,
  match fPIC (options s) with
  | Some _ =>
      (Ok (), set_options (λ o, {| shared := shared o; fPIC := None;
                                   with_ssl := with_ssl o; with_shm := with_shm o;
                                   enable_security := enable_security o;
                                   enable_discovery := enable_discovery o |}) s)
  | None =>
      (Raise (Exc (ConanException
                     (option_not_exist_msg "fPIC" (existing_options (options s)))) line),
       s)
  end.

(** ** Class attributes *)

(** [options]: the declared options with their allowed values. *)
Definition options_decl : list (string * list bool) :=
  [ ("shared", [true; false]);
    ("fPIC", [true; false]);
    ("with_ssl", [true; false]);
    ("with_shm", [true; false]);
    ("enable_security", [true; false]);
    ("enable_discovery", [true; false]) ].

Definition default_options : gmap string bool :=
  list_to_map
    [ ("shared", false);
      ("fPIC", true);
      ("with_ssl", false);
      ("with_shm", false);
      ("enable_security", false);
      ("enable_discovery", true) ].

(** The options object built from a mapping of option values: a declared
    option without a value is [false], [fPIC] is present when it has one. *)
Definition options_of (values : gmap string bool) : Options :=
  {| shared := default false (values !! "shared");
     fPIC := values !! "fPIC";
     with_ssl := default false (values !! "with_ssl");
     with_shm := default false (values !! "with_shm");
     enable_security := default false (values !! "enable_security");
     enable_discovery := default false (values !! "enable_discovery") |}.

Definition _min_cppstd : string := "14".

Definition _compilers_minimum_version : gmap string string :=
  list_to_map
    [ ("gcc", "7");
      ("clang", "7");
      ("apple-clang", "10");
      ("msvc", "192");
      ("Visual Studio", "16") ].

(** ** Hooks *)

(** Lines of conanfile.py at which an exception can leave [validate]. *)
Definition line_security : nat := 98.
Definition line_get_safe : nat := 102.
Definition line_cppstd : nat := 103.
Definition line_too_old : nat := 107.

Definition config_options : M unit :=
  os ← setting "os";
  when (bool_decide (os = Some "Windows")) (del_fPIC 76).

Definition configure : M unit :=
  is_shared ← option_value shared;
  when is_shared (del_fPIC 81) ;;
  rm_safe "compiler.libcxx" ;;
  rm_safe "compiler.cppstd".

(** [self.requires(ref)]. *)
Definition self_requires (ref : string) : M unit :=
  modify (set_declared_requires (λ l, l ++ [ref])).

Definition requirements : M unit :=
  shm ← option_value with_shm;
  when shm (self_requires "iceoryx/2.0.5") ;;
  ssl ← option_value with_ssl;
  when ssl (self_requires "openssl/[>=1.1 <4]").

Section Validate.

Context {tools : ConanTools}.

(** [self.settings.compiler.get_safe(name)] at [line]: the subsettings are
    those of the compiler's value, and a compiler without a value is an
    error of the settings object. *)
Definition compiler_get_safe (name : string) (line : nat) : M (option string) :=
  compiler ← setting "compiler";
  match compiler with
  | None => raise (ConanException "'settings.compiler' value not defined") line
  | Some _ => setting ("compiler." +:+ name)
  end.

(** The message of [check_min_cppstd] for a standard below the minimum. *)
Definition cppstd_too_low (std min : string) : string :=
  "Current cppstd (" +:+ std +:+ ") is lower than the required C++ standard (" +:+ min +:+ ").".

(** [check_min_cppstd(self, min)], called from line 103. *)
Definition check_min_cppstd (min : string) : M unit :=
  global_name "check_min_cppstd" line_cppstd ;;
  log (EvCheckMinCppstd min) ;;
  current ← setting "compiler.cppstd";
  match current with
  | None =>
      raise (ConanInvalidConfiguration "The compiler.cppstd is not defined for this configuration")
            line_cppstd
  | Some std =>
      if cppstd_at_least std min then mret ()
      else raise (ConanInvalidConfiguration (cppstd_too_low std min)) line_cppstd
  end.

(** The condition of line 106: [min_version and Version(version) < min_version]. *)
Definition too_old (min_version : option string) (version : option string) : bool :=
  match min_version with
  | Some m => truthy (Some m) && version_lt (py_str version) m
  | None => false
  end.

Definition validate : M unit :=
  security ← option_value enable_security;
  is_shared ← option_value shared;
  when (security && negb is_shared)
    (raise_ConanInvalidConfiguration
       "CycloneDDS: security only supported in shared builds" line_security) ;;
  cppstd ← compiler_get_safe "cppstd" line_get_safe;
  when (truthy cppstd) (check_min_cppstd _min_cppstd) ;;
  compiler ← setting "compiler";
  let min_version := _compilers_minimum_version !! py_str compiler in
  version ← setting "compiler.version";
  when (too_old min_version version)
    (raise_ConanInvalidConfiguration
       ("CycloneDDS requires at least C++" +:+ _min_cppstd +:+ "; "
          +:+ py_str compiler +:+ " " +:+ py_str version +:+ " is too old.")
       line_too_old).

(** The conditions under which each statement of [validate] that can raise
    is reached and raises. *)

(** Line 97. *)
Definition security_static (s : conanfile) : bool :=
  enable_security (options s) && negb (shared (options s)).

(** Line 102: the compiler has no value. *)
Definition compiler_unset (s : conanfile) : bool :=
  bool_decide (settings s !! "compiler" = None).

(** Lines 102-103: the standard is configured and [check_min_cppstd] rejects
    it. *)
Definition cppstd_rejected (s : conanfile) : bool :=
  match settings s !! "compiler.cppstd" with
  | Some std => truthy (Some std) && negb (cppstd_at_least std _min_cppstd)
  | None => false
  end.

(** Lines 105-106. *)
Definition compiler_too_old (s : conanfile) : bool :=
  too_old (_compilers_minimum_version !! py_str (settings s !! "compiler"))
          (settings s !! "compiler.version").

(** The recipe object after lines 102-103: the call of [check_min_cppstd],
    when it is made, is in the journal. *)
Definition after_cppstd_check (s : conanfile) : conanfile :=
  if truthy (settings s !! "compiler.cppstd")
  then set_journal (λ j, j ++ [EvCheckMinCppstd _min_cppstd]) s
  else s.

(** The [raise] statement of [validate] that a run reaches, by its line. *)
Definition error_branch (s : conanfile) : option nat :=
  if security_static s then Some line_security
  else if cppstd_rejected s then None
  else if compiler_too_old s then Some line_too_old
  else None.

(** The statement "the compiler-version check is skipped when no
    compiler.cppstd is configured", for one recipe object. *)
Definition version_check_skipped_without_cppstd (s : conanfile) : Prop :=
  settings s !! "compiler.cppstd" = None →
  raised_line (outcome (validate s)) ≠ Some line_too_old.

End Validate.

(** [self._has_idlc()]. *)
Definition _has_idlc (line : nat) : M bool := call_helper "_has_idlc" line.

(** [tc.variables[k] = v] and [tc.cache_variables[k] = v]. *)
Definition set_variable (k : string) (v : bool) (tc : CMakeToolchain) : CMakeToolchain :=
  {| variables := <[k := v]> (variables tc); cache_variables := cache_variables tc |}.

Definition set_cache_variable (k : string) (v : bool) (tc : CMakeToolchain) : CMakeToolchain :=
  {| variables := variables tc; cache_variables := <[k := v]> (cache_variables tc) |}.

(** The toolchain object as its constructor leaves the two tables the recipe
    writes to. *)
Definition new_toolchain : CMakeToolchain := {| variables := ∅; cache_variables := ∅ |}.

(** Lines 122-135 of [generate], once the right-hand side of line 122 has
    been evaluated to [idlc]. *)
Definition generate_from (tc : CMakeToolchain) (idlc : bool) : M unit :=
  let tc := set_variable "BUILD_IDLC" idlc tc in
  let tc := set_variable "BUILD_IDLC_TESTING" false tc in
  let tc := set_variable "BUILD_DDSPERF" false tc in
  ssl ← option_value with_ssl;
  let tc := set_variable "ENABLE_SSL" ssl tc in
  shm ← option_value with_shm;
  let tc := set_variable "ENABLE_SHM" shm tc in
  security ← option_value enable_security;
  let tc := set_variable "ENABLE_SECURITY" security tc in
  discovery ← option_value enable_discovery;
  let tc := set_variable "ENABLE_TYPE_DISCOVERY" discovery tc in
  discovery ← option_value enable_discovery;
  let tc := set_variable "ENABLE_TOPIC_DISCOVERY" discovery tc in
  let tc := set_cache_variable "ENABLE_LTO" false tc in
  log (EvToolchainGenerate tc) ;;
  log EvCMakeDepsGenerate.

Definition generate : M unit :=
  let tc := new_toolchain in
  idlc ← _has_idlc 122;
  generate_from tc idlc.

(** The file tools of conan.tools.files and the CMake helper. *)
Definition copy (pattern : string) (src dst : path) : M unit := log (EvCopy pattern src dst).
Definition rmdir (folder : path) : M unit := log (EvRmdir folder).
Definition rm (pattern : string) (folder : path) : M unit := log (EvRm pattern folder).
Definition cmake_install : M unit := log EvCMakeInstall.

(** The patterns of the loop of line 157. *)
Definition windows_patterns : list string :=
  [ "*.pdb"; "concrt*.dll"; "msvcp*.dll"; "vcruntime*.dll" ].

Definition package : M unit :=
  cmake_install ;;
  self ← get_self;
  copy "LICENSE" (source_folder self) (os_path_join (package_folder self) ["licenses"]) ;;
  self ← get_self;
  rmdir (os_path_join (package_folder self) ["share"]) ;;
  self ← get_self;
  rmdir (os_path_join (package_folder self) ["lib"; "pkgconfig"]) ;;
  self ← get_self;
  rm "*.cmake" (os_path_join (package_folder self) ["lib"; "cmake"; "CycloneDDS"]) ;;
  os ← setting "os";
  when (bool_decide (os = Some "Windows"))
    (for_each windows_patterns
       (λ pattern, self ← get_self; rm pattern (os_path_join (package_folder self) ["bin"]))).

(** [self.cpp_info.set_property(k, v)]. *)
Definition set_property (k : string) (v : property) : M unit :=
  modify (set_cpp_info (λ ci,
    {| info_properties := <[k := v]> (info_properties ci); components := components ci |})).

(** A statement on [self.cpp_info.components[name]]: the entry is created
    on first access and updated in place. *)
Definition on_component (name : string) (f : component → component) : M unit :=
  modify (set_cpp_info (λ ci,
    {| info_properties := info_properties ci;
       components := <[name := f (default new_component (components ci !! name))]> (components ci) |})).

Definition comp_set_property (k : string) (v : property) (c : component) : component :=
  {| properties := <[k := v]> (properties c); libs := libs c;
     requires := requires c; system_libs := system_libs c |}.

Definition comp_set_libs (l : list string) (c : component) : component :=
  {| properties := properties c; libs := l;
     requires := requires c; system_libs := system_libs c |}.

Definition comp_requires_append (r : string) (c : component) : component :=
  {| properties := properties c; libs := libs c;
     requires := requires c ++ [r]; system_libs := system_libs c |}.

Definition comp_set_system_libs (l : list string) (c : component) : component :=
  {| properties := properties c; libs := libs c;
     requires := requires c; system_libs := l |}.

(** [env.prepend_path(var, p)]. *)
Definition prepend_path (var : string) (p : path) (env : gmap string (list path)) : gmap string (list path) :=
  <[var := p :: default [] (env !! var)]> env.

(** Lines 161-178 of [package_info]: the package properties and the [ddsc]
    component. *)
Definition package_info_ddsc : M unit :=
  set_property "pkg_config_name" (PStr "CycloneDDS") ;;
  set_property "cmake_file_name" (PStr "CycloneDDS") ;;
  on_component "ddsc" id ;;
  on_component "ddsc" (comp_set_property "cmake_target_name" (PStr "CycloneDDS::ddsc")) ;;
  on_component "ddsc" (comp_set_libs ["ddsc"]) ;;
  shm ← option_value with_shm;
  when shm (on_component "ddsc" (comp_requires_append "iceoryx::iceoryx_binding_c")) ;;
  ssl ← option_value with_ssl;
  when ssl (on_component "ddsc" (comp_requires_append "openssl::openssl")) ;;
  os ← setting "os";
  if bool_decide (os = Some "Linux") || bool_decide (os = Some "FreeBSD") then
    on_component "ddsc" (comp_set_system_libs ["dl"; "pthread"])
  else
    when (bool_decide (os = Some "Windows"))
      (on_component "ddsc" (comp_set_system_libs ["ws2_32"; "dbghelp"; "bcrypt"; "iphlpapi"])).

(** Lines 182-194 of [package_info]: the body of the [if] of line 181. *)
Definition package_info_idl : M unit :=
  on_component "idl" id ;;
  on_component "idl" (comp_set_property "cmake_target_name" (PStr "CycloneDDS::idl")) ;;
  on_component "idl" (comp_set_libs ["cycloneddsidl"]) ;;
  on_component "idl" (comp_set_property "cmake_build_modules"
    (PPaths [ os_path_join ["lib"] ["cmake"; "CycloneDDS"; "CycloneDDS_idlc.cmake"];
              os_path_join ["lib"] ["cmake"; "CycloneDDS"; "idlc"; "Generate.cmake"] ])) ;;
  self ← get_self;
  let bin_path := os_path_join (package_folder self) ["bin"] in
  modify (set_buildenv_info (prepend_path "PATH" bin_path)) ;;
  modify (set_runenv_info (prepend_path "PATH" bin_path)).

Definition package_info : M unit :=
  package_info_ddsc ;;
  idlc ← _has_idlc 181;
  when idlc package_info_idl.

(** ** A concrete instance of the helpers

    The order that [Version] gives to dotted versions whose items are all
    decimal numbers ("7", "9.4", "192"), and the standards that
    [check_min_cppstd] accepts ("14", "gnu17", "98").  Spellings outside
    these forms are never lower and never accepted. *)

Definition digit_value (c : Ascii.ascii) : option nat :=
  let n := Ascii.nat_of_ascii c in
  if (48 <=? n)%nat && (n <=? 57)%nat then Some (n - 48)%nat else None.

Fixpoint parse_digits (s : string) (acc : nat) : option nat :=
  match s with
  | EmptyString => Some acc
  | String c rest =>
      match digit_value c with
      | Some d => parse_digits rest (10 * acc + d)%nat
      | None => None
      end
  end.

Definition parse_number (s : string) : option nat :=
  match s with
  | EmptyString => None
  | _ => parse_digits s 0
  end.

(** [s.split(".")], with [cur] the item being read. *)
Fixpoint split_dots (s : string) (cur : string) : list string :=
  match s with
  | EmptyString => [cur]
  | String c rest =>
      if Ascii.eqb c "."%char then cur :: split_dots rest ""
      else split_dots rest (cur +:+ String c "")
  end.

Definition version_items (s : string) : option (list nat) :=
  mapM parse_number (split_dots s "").

(** Trailing zero items do not count: 7.0 and 7 are the same version. *)
Fixpoint strip_zeros (l : list nat) : list nat :=
  match l with
  | [] => []
  | x :: rest =>
      match strip_zeros rest with
      | [] => if (x =? 0)%nat then [] else [x]
      | rest' => x :: rest'
      end
  end.

Fixpoint items_lt (a b : list nat) : bool :=
  match a, b with
  | _, [] => false
  | [], _ :: _ => true
  | x :: a', y :: b' => (x <? y)%nat || ((x =? y)%nat && items_lt a' b')
  end.

Definition dotted_version_lt (a b : string) : bool :=
  match version_items a, version_items b with
  | Some x, Some y => items_lt (strip_zeros x) (strip_zeros y)
  | _, _ => false
  end.

Definition cppstd_year (s : string) : option nat :=
  let digits :=
    match s with
    | String "g"%char (String "n"%char (String "u"%char rest)) => rest
    | _ => s
    end in
  n ← parse_number digits;
  Some (if (n =? 98)%nat then 1998 else 2000 + n)%nat.

Definition dotted_cppstd_at_least (current min : string) : bool :=
  match cppstd_year current, cppstd_year min with
  | Some c, Some m => (m <=? c)%nat
  | _, _ => false
  end.

Definition dotted_tools : ConanTools :=
  {| version_lt := dotted_version_lt; cppstd_at_least := dotted_cppstd_at_least |}.

(** ** Sample recipe objects *)

(** A recipe object before any hook has run. *)
Definition fresh (st : gmap string string) (o : Options) : conanfile :=
  {| settings := st; options := o;
     source_folder := ["src"]; package_folder := ["p"];
     declared_requires := [];
     cpp_info := {| info_properties := ∅; components := ∅ |};
     buildenv_info := ∅; runenv_info := ∅;
     journal := [] |}.

(** The settings of a profile, without and with a [compiler.cppstd]. *)
Definition profile (os compiler version : string) : gmap string string :=
  list_to_map
    [ ("os", os); ("arch", "x86_64"); ("build_type", "Release");
      ("compiler", compiler); ("compiler.version", version);
      ("compiler.libcxx", "libstdc++11") ].

Definition profile_cppstd (os compiler version cppstd : string) : gmap string string :=
  <["compiler.cppstd" := cppstd]> (profile os compiler version).

(** Option values given by the user on top of the defaults. *)
Definition user_options (given : list (string * bool)) : Options :=
  options_of (list_to_map given ∪ default_options).

(** ** Conan references *)

(** The version part of a reference [name/version]. *)
Fixpoint ref_version (ref : string) : string :=
  match ref with
  | EmptyString => ""
  | String c rest => if Ascii.eqb c "/"%char then rest else ref_version rest
  end.

(** The name part of a reference [name/version]. *)
Fixpoint ref_name (ref : string) : string :=
  match ref with
  | EmptyString => ""
  | String c rest => if Ascii.eqb c "/"%char then "" else String c (ref_name rest)
  end.

(** A version range is written in square brackets; any other version is
    pinned. *)
Definition is_version_range (version : string) : bool :=
  match version with
  | String c _ => Ascii.eqb c "["%char
  | EmptyString => false
  end.

(** The events that a run added to the journal of [s]. *)
Definition added_events (s s' : conanfile) : list event :=
  drop (length (journal s)) (journal s').

(** The package that a component requirement [package::component] names. *)
Fixpoint component_package (r : string) : string :=
  match r with
  | EmptyString => ""
  | String c rest =>
      match rest with
      | String c' _ =>
          if Ascii.eqb c ":"%char && Ascii.eqb c' ":"%char then ""
          else String c (component_package rest)
      | EmptyString => String c ""
      end
  end.

(** The folder in which a file-removal event deletes. *)
Definition removal_folder (ev : event) : option path :=
  match ev with
  | EvRmdir folder => Some folder
  | EvRm _ folder => Some folder
  | _ => None
  end.

(** The variables that lines 122-129 assign. *)
Definition forwarded_variables : list string :=
  [ "BUILD_IDLC"; "BUILD_IDLC_TESTING"; "BUILD_DDSPERF";
    "ENABLE_SSL"; "ENABLE_SHM"; "ENABLE_SECURITY";
    "ENABLE_TYPE_DISCOVERY"; "ENABLE_TOPIC_DISCOVERY" ].

(** * Properties *)

(** ** Reasoning about runs *)

Ltac unfold_monad :=
  unfold when, option_value, setting, rm_safe, log, modify, get_self, raise,
    mbind, M_bind, mret, M_ret, outcome, final.

Ltac unfold_monad_all :=
  unfold when, option_value, setting, rm_safe, log, modify, get_self, raise,
    mbind, M_bind, mret, M_ret, outcome, final in *.

Lemma bind_ok {A B : Type} (c : M A) (k : A → M B) (s s' : conanfile) (a : A) :
  c s = (Ok a, s') → (c ≫= k) s = k a s'.
Proof. intros Hc. unfold mbind, M_bind. by rewrite Hc. Qed.

Lemma bind_raise {A B : Type} (c : M A) (k : A → M B) (s s' : conanfile) (e : exception) :
  c s = (Raise e, s') → (c ≫= k) s = (Raise e, s').
Proof. intros Hc. unfold mbind, M_bind. by rewrite Hc. Qed.

(** Run the first statement of a sequence when it returns normally. *)
Ltac step := erewrite bind_ok by reflexivity; cbn beta.

(** ** Options and [fPIC] *)

Lemma config_options_run (s : conanfile) :
  config_options s =
    if bool_decide (settings s !! "os" = Some "Windows") then del_fPIC 76 s else (Ok (), s).
Proof. unfold config_options. unfold_monad. by case_bool_decide. Qed.

Lemma del_fPIC_present (line : nat) (s : conanfile) :
  is_Some (fPIC (options s)) →
  outcome (del_fPIC line s) = Ok () ∧
  fPIC (options (final (del_fPIC line s))) = None ∧
  settings (final (del_fPIC line s)) = settings s ∧
  shared (options (final (del_fPIC line s))) = shared (options s).
Proof. intros [b Hb]. unfold del_fPIC, outcome, final. by rewrite Hb. Qed.

Lemma del_fPIC_absent (line : nat) (s : conanfile) :
  fPIC (options s) = None →
  del_fPIC line s = (Raise (Exc (ConanException fPIC_not_exist) line), s).
Proof.
  intros Hb. unfold del_fPIC, fPIC_not_exist, existing_options. by rewrite Hb.
Qed.

(** On Windows with [shared=True] the second [del] finds the option already
    gone: [configure] raises at line 81, with [fPIC] still removed. *)
Lemma configure_windows_shared (s : conanfile) :
  is_Some (fPIC (options s)) →
  settings s !! "os" = Some "Windows" →
  shared (options s) = true →
  outcome ((config_options ;; configure) s)
    = Raise (Exc (ConanException fPIC_not_exist) 81).
Proof.
  intros [b Hb] Hos Hsh. unfold configure. unfold_monad.
  rewrite config_options_run, Hos. simpl.
  unfold del_fPIC at 1. rewrite Hb. simpl. by rewrite Hsh.
Qed.

Lemma configure_run (s : conanfile) :
  configure s =
    if shared (options s) then
      match fPIC (options s) with
      | Some _ =>
          (Ok (),
           set_settings (delete "compiler.cppstd")
             (set_settings (delete "compiler.libcxx") (final (del_fPIC 81 s))))
      | None => (Raise (Exc (ConanException fPIC_not_exist) 81), s)
      end
    else
      (Ok (),
       set_settings (delete "compiler.cppstd") (set_settings (delete "compiler.libcxx") s)).
Proof.
  unfold configure. step.
  destruct (shared (options s)); simpl.
  - destruct (fPIC (options s)) as [b|] eqn:Hpic.
    + erewrite bind_ok by (unfold del_fPIC; by rewrite Hpic). step.
      unfold del_fPIC, final. by rewrite Hpic.
    + by erewrite bind_raise by (by apply del_fPIC_absent).
  - by do 2 step.
Qed.

(** The declaration of lines 36-51: six boolean options, each with its
    default. *)
Lemma declared_options_and_defaults :
  options_decl.*1 =
    ["shared"; "fPIC"; "with_ssl"; "with_shm"; "enable_security"; "enable_discovery"] ∧
  Forall (λ d, d.2 = [true; false]) options_decl ∧
  dom default_options = (list_to_set (options_decl.*1) : gset string) ∧
  default_options !! "shared" = Some false ∧
  default_options !! "fPIC" = Some true ∧
  default_options !! "with_ssl" = Some false ∧
  default_options !! "with_shm" = Some false ∧
  default_options !! "enable_security" = Some false ∧
  default_options !! "enable_discovery" = Some true.
Proof.
  split; [done|]. split; [by repeat constructor|]. repeat split; by vm_compute.
Qed.

(** Whenever the two hooks return, fPIC is gone exactly when the platform is
    Windows or shared is true. *)
Lemma fPIC_after_config_options_and_configure (s s' : conanfile) :
  is_Some (fPIC (options s)) →
  (config_options ;; configure) s = (Ok (), s') →
  (fPIC (options s') = None
   ↔ settings s !! "os" = Some "Windows" ∨ shared (options s) = true).
Proof.
  intros [b Hb]. unfold mbind, M_bind. rewrite config_options_run.
  case_bool_decide as Hos.
  - unfold del_fPIC at 1. rewrite Hb. rewrite configure_run. simpl.
    destruct (shared (options s)); simpl; [done|].
    intros [= <-]. simpl. tauto.
  - rewrite configure_run.
    destruct (shared (options s)) eqn:Hsh; rewrite ?Hb.
    + unfold del_fPIC, final. rewrite Hb. intros [= <-]. simpl. tauto.
    + intros [= <-]. simpl. rewrite Hb.
      split; [done | intros [? | ?]; congruence].
Qed.

(** Off Windows the two hooks always return, and fPIC stays iff shared is
    false. *)
Lemma config_options_and_configure_off_windows (s : conanfile) :
  is_Some (fPIC (options s)) →
  settings s !! "os" ≠ Some "Windows" →
  outcome ((config_options ;; configure) s) = Ok () ∧
  (is_Some (fPIC (options (final ((config_options ;; configure) s))))
   ↔ shared (options s) = false).
Proof.
  intros [b Hb] Hos. unfold mbind, M_bind, outcome, final.
  rewrite config_options_run, (bool_decide_eq_false_2 _ Hos), configure_run.
  destruct (shared (options s)); rewrite ?Hb; simpl.
  - unfold del_fPIC. rewrite Hb. simpl.
    split; [done|]. split; [intros [? ?]; discriminate | discriminate].
  - rewrite Hb. split; [done|]. split; [done | eauto].
Qed.

(** C5. On Windows with shared=True, starting from the declared options,
    config_options deletes fPIC at line 76 and returns, and configure then
    deletes it a second time at line 81: the options object raises
    ConanException there, so the two hooks end in an error and yield no
    option set. *)
Theorem configure_raises_on_windows_shared :
  fPIC (options (fresh (profile "Windows" "msvc" "193") (user_options [("shared", true)])))
    = Some true ∧
  outcome (config_options
             (fresh (profile "Windows" "msvc" "193") (user_options [("shared", true)])))
    = Ok () ∧
  fPIC (options (final (config_options
          (fresh (profile "Windows" "msvc" "193") (user_options [("shared", true)])))))
    = None ∧
  outcome ((config_options ;; configure)
             (fresh (profile "Windows" "msvc" "193") (user_options [("shared", true)])))
    = Raise (Exc (ConanException fPIC_not_exist) 81).
Proof. repeat split; by vm_compute. Qed.

(** ** Requirements *)

Lemma requirements_run (s : conanfile) :
  requirements s =
    (Ok (),
     set_declared_requires
       (λ l, (l ++ (if with_shm (options s) then ["iceoryx/2.0.5"] else []))
               ++ (if with_ssl (options s) then ["openssl/[>=1.1 <4]"] else []))
       s).
Proof.
  unfold requirements, self_requires. unfold_monad. simpl.
  destruct s as [st [sh pic ssl shm sec disc] sf pf reqs ci be re j]; simpl.
  destruct shm, ssl; unfold set_declared_requires; simpl; by rewrite ?app_nil_r.
Qed.

(** C6. requirements returns normally and appends to the declared
    requirements the shared-memory reference iceoryx/2.0.5 (a pinned version)
    exactly once when with_shm is true and not at all when it is false, then
    the TLS reference openssl/[>=1.1 <4] (a version range) when with_ssl is
    true and not otherwise: the shared-memory entry precedes the TLS entry. *)
Theorem requirements_entries (s : conanfile) :
  outcome (requirements s) = Ok () ∧
  declared_requires (final (requirements s)) =
    declared_requires s
      ++ (if with_shm (options s) then ["iceoryx/2.0.5"] else [])
      ++ (if with_ssl (options s) then ["openssl/[>=1.1 <4]"] else []) ∧
  length (filter (λ r, ref_name r = "iceoryx") (declared_requires (final (requirements s)))) =
    (length (filter (λ r, ref_name r = "iceoryx") (declared_requires s))
       + (if with_shm (options s) then 1 else 0))%nat ∧
  length (filter (λ r, ref_name r = "openssl") (declared_requires (final (requirements s)))) =
    (length (filter (λ r, ref_name r = "openssl") (declared_requires s))
       + (if with_ssl (options s) then 1 else 0))%nat ∧
  is_version_range (ref_version "iceoryx/2.0.5") = false ∧
  is_version_range (ref_version "openssl/[>=1.1 <4]") = true.
Proof.
  rewrite requirements_run. unfold outcome, final. simpl.
  split; [done|]. split; [by rewrite <- app_assoc|].
  rewrite !filter_app, !length_app.
  assert (Hshm : ∀ name, length (filter (λ r, ref_name r = name) ["iceoryx/2.0.5"])
                         = if bool_decide (name = "iceoryx") then 1%nat else 0%nat).
  { intros name. rewrite filter_cons, filter_nil.
    change (ref_name "iceoryx/2.0.5") with "iceoryx".
    case_decide; case_bool_decide; simpl; congruence. }
  assert (Hssl : ∀ name, length (filter (λ r, ref_name r = name) ["openssl/[>=1.1 <4]"])
                         = if bool_decide (name = "openssl") then 1%nat else 0%nat).
  { intros name. rewrite filter_cons, filter_nil.
    change (ref_name "openssl/[>=1.1 <4]") with "openssl".
    case_decide; case_bool_decide; simpl; congruence. }
  destruct (with_shm (options s)), (with_ssl (options s));
    rewrite ?Hshm, ?Hssl, ?filter_nil; simpl; repeat split; lia.
Qed.

(** ** Post-install clean-up *)

Lemma for_each_rm_run (patterns : list string) (s : conanfile) :
  for_each patterns
    (λ pattern, self ← get_self; rm pattern (os_path_join (package_folder self) ["bin"])) s =
  (Ok (),
   set_journal
     (λ j, j ++ map (λ pattern, EvRm pattern (package_folder s ++ ["bin"])) patterns) s).
Proof.
  revert s. induction patterns as [|p rest IH]; intros s.
  - unfold set_journal. simpl. rewrite app_nil_r. by destruct s.
  - cbn [for_each]. step. rewrite IH.
    unfold set_journal, os_path_join. simpl. by rewrite <- app_assoc.
Qed.

Lemma windows_cleanup_run (s : conanfile) :
  when (bool_decide (settings s !! "os" = Some "Windows"))
    (for_each windows_patterns
       (λ pattern, self ← get_self; rm pattern (os_path_join (package_folder self) ["bin"]))) s =
  (Ok (),
   set_journal
     (λ j, j ++ (if bool_decide (settings s !! "os" = Some "Windows")
                 then map (λ pattern, EvRm pattern (package_folder s ++ ["bin"]))
                        windows_patterns
                 else [])) s).
Proof.
  unfold when. case_bool_decide.
  - apply for_each_rm_run.
  - unfold set_journal. simpl. rewrite app_nil_r. by destruct s.
Qed.

Lemma package_run (s : conanfile) :
  package s =
    (Ok (),
     set_journal
       (λ j, j ++ [ EvCMakeInstall;
                    EvCopy "LICENSE" (source_folder s) (package_folder s ++ ["licenses"]);
                    EvRmdir (package_folder s ++ ["share"]);
                    EvRmdir (package_folder s ++ ["lib"; "pkgconfig"]);
                    EvRm "*.cmake" (package_folder s ++ ["lib"; "cmake"; "CycloneDDS"]) ]
               ++ (if bool_decide (settings s !! "os" = Some "Windows")
                   then map (λ pattern, EvRm pattern (package_folder s ++ ["bin"]))
                          windows_patterns
                   else []))
       s).
Proof.
  unfold package. do 10 step. rewrite windows_cleanup_run.
  unfold set_journal, os_path_join. simpl. by rewrite <- !app_assoc.
Qed.

(** C8. On every platform package returns normally and its clean-up removes
    the share directory, the lib/pkgconfig directory and the *.cmake files of
    lib/cmake/CycloneDDS; each of the four glob removals in bin, for the
    debug symbols and the concrt, msvcp and vcruntime runtime DLLs, is
    performed iff the platform is Windows. *)
Theorem package_cleanup_rules (s : conanfile) :
  outcome (package s) = Ok () ∧
  EvRmdir (package_folder s ++ ["share"]) ∈ added_events s (final (package s)) ∧
  EvRmdir (package_folder s ++ ["lib"; "pkgconfig"]) ∈ added_events s (final (package s)) ∧
  EvRm "*.cmake" (package_folder s ++ ["lib"; "cmake"; "CycloneDDS"])
    ∈ added_events s (final (package s)) ∧
  windows_patterns = ["*.pdb"; "concrt*.dll"; "msvcp*.dll"; "vcruntime*.dll"] ∧
  Forall (λ pattern,
            EvRm pattern (package_folder s ++ ["bin"]) ∈ added_events s (final (package s))
            ↔ settings s !! "os" = Some "Windows")
         windows_patterns.
Proof.
  rewrite package_run. unfold outcome, final, added_events. simpl.
  rewrite drop_app_length.
  split; [done|].
  split; [set_solver|]. split; [set_solver|]. split; [set_solver|].
  split; [done|].
  case_bool_decide as Hos; simpl.
  - repeat constructor; first [done | set_solver].
  - rewrite ?app_nil_r.
    repeat constructor; try done; intros Hin; exfalso;
      repeat (apply elem_of_cons in Hin as [Hin | Hin]; [discriminate Hin|]);
      by apply elem_of_nil in Hin.
Qed.

(** ** Validation *)

Lemma ConanInvalidConfiguration_unbound : name_bound "ConanInvalidConfiguration" = false.
Proof. by vm_compute. Qed.

Lemma check_min_cppstd_bound : name_bound "check_min_cppstd" = true.
Proof. by vm_compute. Qed.

Lemma raise_ConanInvalidConfiguration_run {A : Type} (msg : string) (line : nat) (s : conanfile) :
  raise_ConanInvalidConfiguration (A := A) msg line s
    = (Raise (Exc (NameError "ConanInvalidConfiguration") line), s).
Proof.
  unfold raise_ConanInvalidConfiguration, global_name.
  by rewrite ConanInvalidConfiguration_unbound.
Qed.

Lemma compiler_get_safe_unset (name : string) (line : nat) (s : conanfile) :
  settings s !! "compiler" = None →
  compiler_get_safe name line s
    = (Raise (Exc (ConanException "'settings.compiler' value not defined") line), s).
Proof. intros Hc. unfold compiler_get_safe. unfold_monad. by rewrite Hc. Qed.

Lemma compiler_get_safe_cppstd (line : nat) (s : conanfile) :
  settings s !! "compiler" ≠ None →
  compiler_get_safe "cppstd" line s = (Ok (settings s !! "compiler.cppstd"), s).
Proof.
  intros Hc. unfold compiler_get_safe. unfold_monad.
  by destruct (settings s !! "compiler").
Qed.

Section ValidateProperties.

Context {tools : ConanTools}.

Lemma validate_run (s : conanfile) :
  validate s =
    if security_static s then
      (Raise (Exc (NameError "ConanInvalidConfiguration") line_security), s)
    else if compiler_unset s then
      (Raise (Exc (ConanException "'settings.compiler' value not defined") line_get_safe), s)
    else if cppstd_rejected s then
      (Raise (Exc (ConanInvalidConfiguration
                     (cppstd_too_low (py_str (settings s !! "compiler.cppstd")) _min_cppstd))
                  line_cppstd),
       after_cppstd_check s)
    else if compiler_too_old s then
      (Raise (Exc (NameError "ConanInvalidConfiguration") line_too_old), after_cppstd_check s)
    else (Ok (), after_cppstd_check s).
Proof.
  unfold validate, security_static, compiler_unset, cppstd_rejected, compiler_too_old,
    after_cppstd_check.
  do 2 step.
  destruct (enable_security (options s) && negb (shared (options s))).
  - erewrite bind_raise; [done|]. apply raise_ConanInvalidConfiguration_run.
  - step. case_bool_decide as Hc.
    { erewrite bind_raise; [done|]. by apply compiler_get_safe_unset. }
    erewrite bind_ok by (by apply compiler_get_safe_cppstd). cbn beta.
    destruct (settings s !! "compiler.cppstd") as [std|] eqn:Hstd.
    + destruct (truthy (Some std)) eqn:Htruthy; simpl.
      * unfold check_min_cppstd, global_name. rewrite check_min_cppstd_bound.
        destruct (cppstd_at_least std _min_cppstd) eqn:Hok; simpl.
        -- erewrite bind_ok; [|unfold_monad; simpl; by rewrite Hstd, Hok].
           do 2 step. simpl.
           destruct (too_old _ _).
           ++ apply raise_ConanInvalidConfiguration_run.
           ++ done.
        -- erewrite bind_raise; [done|]. unfold_monad. simpl. by rewrite Hstd, Hok.
      * do 3 step. destruct (too_old _ _).
        ++ apply raise_ConanInvalidConfiguration_run.
        ++ done.
    + simpl. do 3 step. destruct (too_old _ _).
      * apply raise_ConanInvalidConfiguration_run.
      * done.
Qed.


Lemma validate_raised_line (s : conanfile) :
  raised_line (outcome (validate s)) =
    if security_static s then Some line_security
    else if compiler_unset s then Some line_get_safe
    else if cppstd_rejected s then Some line_cppstd
    else if compiler_too_old s then Some line_too_old
    else None.
Proof.
  rewrite validate_run. unfold outcome.
  by destruct (security_static s), (compiler_unset s), (cppstd_rejected s),
    (compiler_too_old s).
Qed.

(** Without a compiler there is no table entry to be below. *)
Lemma compiler_unset_not_too_old (s : conanfile) :
  compiler_unset s = true → compiler_too_old s = false.
Proof.
  unfold compiler_unset, compiler_too_old. intros Hc.
  apply bool_decide_eq_true_1 in Hc. by rewrite Hc.
Qed.

(** The security check comes first: it decides alone whether [validate]
    stops at line 98. *)
Lemma validate_stops_at_security_iff (s : conanfile) :
  raised_line (outcome (validate s)) = Some line_security
  ↔ enable_security (options s) = true ∧ shared (options s) = false.
Proof.
  rewrite validate_raised_line.
  unfold security_static, line_security, line_get_safe, line_cppstd, line_too_old.
  destruct (enable_security (options s)), (shared (options s)); simpl;
    try (split; [done | intros [? ?]; done]);
    destruct (compiler_unset s), (cppstd_rejected s), (compiler_too_old s);
    split; try done; intros [? ?]; done.
Qed.

Lemma minimum_versions_truthy (family m : string) :
  _compilers_minimum_version !! family = Some m → truthy (Some m) = true.
Proof.
  intros Hm. apply elem_of_list_to_map_2 in Hm.
  repeat (apply elem_of_cons in Hm as [Hm | Hm]; [by inversion Hm|]).
  by apply elem_of_nil in Hm.
Qed.

(** The table of line 61, entry by entry. *)
Lemma minimum_versions_table :
  _compilers_minimum_version !! "gcc" = Some "7" ∧
  _compilers_minimum_version !! "clang" = Some "7" ∧
  _compilers_minimum_version !! "apple-clang" = Some "10" ∧
  _compilers_minimum_version !! "msvc" = Some "192" ∧
  _compilers_minimum_version !! "Visual Studio" = Some "16" ∧
  dom _compilers_minimum_version
    = ({["gcc"; "clang"; "apple-clang"; "msvc"; "Visual Studio"]} : gset string).
Proof. repeat split; by vm_compute. Qed.

Lemma compiler_too_old_iff (s : conanfile) :
  compiler_too_old s = true
  ↔ ∃ m, _compilers_minimum_version !! py_str (settings s !! "compiler") = Some m ∧
         version_lt (py_str (settings s !! "compiler.version")) m = true.
Proof.
  unfold compiler_too_old, too_old.
  destruct (_compilers_minimum_version !! _) as [m|] eqn:Hm.
  - rewrite (minimum_versions_truthy _ _ Hm). simpl. split; [eauto|].
    by intros (m' & [= <-] & Hlt).
  - split; [done | by intros (m' & ? & _)].
Qed.

(** Once the security check and the cppstd check have passed, [validate]
    stops at line 107 exactly when the compiler family has a table entry and
    the version is below it. *)
Lemma validate_stops_at_version_check_iff (s : conanfile) :
  security_static s = false →
  cppstd_rejected s = false →
  raised_line (outcome (validate s)) = Some line_too_old
  ↔ ∃ m, _compilers_minimum_version !! py_str (settings s !! "compiler") = Some m ∧
         version_lt (py_str (settings s !! "compiler.version")) m = true.
Proof.
  intros Hsec Hstd. rewrite validate_raised_line, Hsec, Hstd, <- compiler_too_old_iff.
  destruct (compiler_unset s) eqn:Hc.
  - by rewrite (compiler_unset_not_too_old s Hc).
  - by destruct (compiler_too_old s).
Qed.

(** X5. A compiler family without an entry in the minimum-version table
    never stops [validate] at the version check of line 107, whatever its
    version. *)
Lemma validate_unknown_compiler (s : conanfile) :
  _compilers_minimum_version !! py_str (settings s !! "compiler") = None →
  raised_line (outcome (validate s)) ≠ Some line_too_old.
Proof.
  intros Hnone. rewrite validate_raised_line.
  assert (compiler_too_old s = false) as ->.
  { unfold compiler_too_old. by rewrite Hnone. }
  by destruct (security_static s), (compiler_unset s), (cppstd_rejected s).
Qed.

(** X6. When the security check passes and a standard is configured for the
    compiler that is set, check_min_cppstd is called exactly once, with the
    minimum 14, also when validate then fails. *)
Lemma validate_calls_check_min_cppstd (s : conanfile) :
  security_static s = false →
  is_Some (settings s !! "compiler") →
  truthy (settings s !! "compiler.cppstd") = true →
  added_events s (final (validate s)) = [EvCheckMinCppstd _min_cppstd].
Proof.
  intros Hsec [c Hc] Hstd. rewrite validate_run, Hsec.
  unfold compiler_unset. rewrite Hc, bool_decide_eq_false_2 by done.
  unfold after_cppstd_check. rewrite Hstd.
  unfold added_events, final.
  destruct (cppstd_rejected s), (compiler_too_old s); simpl; by rewrite drop_app_length.
Qed.

Lemma validate_without_cppstd_no_call (s : conanfile) :
  settings s !! "compiler.cppstd" = None →
  final (validate s) = s ∧ added_events s (final (validate s)) = [].
Proof.
  intros Hstd. rewrite validate_run. unfold after_cppstd_check, cppstd_rejected, final.
  rewrite Hstd. simpl. unfold added_events.
  destruct (security_static s), (compiler_unset s), (compiler_too_old s); simpl;
    by rewrite drop_all.
Qed.

End ValidateProperties.

(** C1. With enable_security=True and shared=False (Linux, gcc 11, the other
    options at their defaults) validate stops at the raise statement of line
    98, and what it raises there is a NameError for the unbound name
    ConanInvalidConfiguration, not the configuration error. *)
Theorem validate_security_static_NameError :
  enable_security (user_options [("enable_security", true)]) = true ∧
  shared (user_options [("enable_security", true)]) = false ∧
  outcome (validate (tools := dotted_tools)
             (fresh (profile "Linux" "gcc" "11") (user_options [("enable_security", true)])))
    = Raise (Exc (NameError "ConanInvalidConfiguration") line_security).
Proof. repeat split; by vm_compute. Qed.

(** C2, as stated, fails: with gcc 5 and no compiler.cppstd configured,
    validate stops at the compiler-version check of line 107. *)
Lemma version_check_not_skipped_without_cppstd :
  ¬ version_check_skipped_without_cppstd (tools := dotted_tools)
      (fresh (profile "Linux" "gcc" "5") (user_options [])).
Proof. intros Hskip. apply Hskip; by vm_compute. Qed.

(** C2, amended. The compiler-version check does not depend on
    compiler.cppstd: for every configuration without a cppstd override that
    passes the security check, check_min_cppstd is not called, and validate
    stops at the compiler-version check of line 107 exactly when the compiler
    family has an entry in the minimum-version table and the compiler version
    is below that entry. *)
Theorem version_check_runs_without_cppstd {tools : ConanTools} (s : conanfile) :
  settings s !! "compiler.cppstd" = None →
  security_static s = false →
  added_events s (final (validate s)) = [] ∧
  (raised_line (outcome (validate s)) = Some line_too_old
   ↔ ∃ m, _compilers_minimum_version !! py_str (settings s !! "compiler") = Some m ∧
          version_lt (py_str (settings s !! "compiler.version")) m = true).
Proof.
  intros Hstd Hsec. split.
  - by apply validate_without_cppstd_no_call.
  - apply validate_stops_at_version_check_iff; [done|].
    unfold cppstd_rejected. by rewrite Hstd.
Qed.

Lemma version_check_runs_without_cppstd_witness :
  settings (fresh (profile "Linux" "gcc" "5") (user_options [])) !! "compiler.cppstd" = None ∧
  security_static (fresh (profile "Linux" "gcc" "5") (user_options [])) = false ∧
  raised_line (outcome (validate (tools := dotted_tools)
                          (fresh (profile "Linux" "gcc" "5") (user_options []))))
    = Some line_too_old.
Proof.
  split; [by vm_compute|]. split; [by vm_compute|].
  apply (version_check_runs_without_cppstd (tools := dotted_tools)
           (fresh (profile "Linux" "gcc" "5") (user_options []))); [by vm_compute ..|].
  exists "7". split; by vm_compute.
Defined.

(** C3. With gcc 6, below the table entry 7 for gcc, and nothing else in the
    way (security off, no compiler.cppstd), validate stops at the raise
    statement of line 107, and what it raises there is a NameError for the
    unbound name ConanInvalidConfiguration, not the configuration error. *)
Theorem validate_old_gcc_NameError :
  _compilers_minimum_version !! "gcc" = Some "7" ∧
  version_lt (ConanTools := dotted_tools) "6" "7" = true ∧
  outcome (validate (tools := dotted_tools)
             (fresh (profile "Linux" "gcc" "6") (user_options [])))
    = Raise (Exc (NameError "ConanInvalidConfiguration") line_too_old).
Proof. repeat split; by vm_compute. Qed.

(** C9. ConanInvalidConfiguration is not among the names the module binds.
    Whenever one of the two raise statements of validate is reached (line 98:
    security with static linking; line 107: compiler version below the
    table entry), validate raises NameError for that name at that line, and
    so does not raise a ConanInvalidConfiguration. *)
Theorem validate_error_branches_raise_NameError {tools : ConanTools} (s : conanfile) (line : nat) :
  error_branch s = Some line →
  ("ConanInvalidConfiguration" ∉ module_names) ∧
  (line = line_security ∨ line = line_too_old) ∧
  outcome (validate s) = Raise (Exc (NameError "ConanInvalidConfiguration") line) ∧
  ∀ msg l, outcome (validate s) ≠ Raise (Exc (ConanInvalidConfiguration msg) l).
Proof.
  intros Hbranch.
  split; [apply (bool_decide_unpack _); by vm_compute|].
  assert (outcome (validate s) = Raise (Exc (NameError "ConanInvalidConfiguration") line)
          ∧ (line = line_security ∨ line = line_too_old)) as [Hout Hline].
  { rewrite validate_run. unfold error_branch in Hbranch. unfold outcome.
    destruct (security_static s); [injection Hbranch as <-; auto|].
    destruct (compiler_unset s) eqn:Hc.
    { rewrite (compiler_unset_not_too_old s Hc) in Hbranch.
      by destruct (cppstd_rejected s). }
    destruct (cppstd_rejected s); [done|].
    destruct (compiler_too_old s); [injection Hbranch as <-; auto | done]. }
  split; [done|]. split; [done|].
  intros msg l. by rewrite Hout.
Qed.

Lemma validate_error_branches_raise_NameError_witness :
  error_branch (tools := dotted_tools)
    (fresh (profile_cppstd "Windows" "msvc" "191" "17") (user_options [("shared", true)]))
    = Some line_too_old ∧
  outcome (validate (tools := dotted_tools)
             (fresh (profile_cppstd "Windows" "msvc" "191" "17") (user_options [("shared", true)])))
    = Raise (Exc (NameError "ConanInvalidConfiguration") line_too_old).
Proof.
  split; [by vm_compute|].
  apply (validate_error_branches_raise_NameError (tools := dotted_tools)
           (fresh (profile_cppstd "Windows" "msvc" "191" "17") (user_options [("shared", true)]))
           line_too_old).
  by vm_compute.
Defined.

(** ** [configure] and the cppstd check *)

Lemma configure_removes_cppstd (s s' : conanfile) :
  configure s = (Ok (), s') → settings s' !! "compiler.cppstd" = None.
Proof.
  unfold configure. step.
  destruct (shared (options s)); simpl.
  - destruct (fPIC (options s)) as [b|] eqn:Hpic.
    + erewrite bind_ok by (unfold del_fPIC; by rewrite Hpic). step.
      unfold rm_safe, modify. intros [= <-]. simpl. apply lookup_delete_eq.
    + erewrite bind_raise by (by apply del_fPIC_absent). done.
  - do 2 step. unfold rm_safe, modify.
    intros [= <-]. simpl. apply lookup_delete_eq.
Qed.

(** C10. In every run in which configure returns, compiler.cppstd is no
    longer among the settings; validate on a recipe object with these
    settings finds get_safe("cppstd") empty and does not call
    check_min_cppstd. *)
Theorem cppstd_check_unreachable_after_configure {tools : ConanTools} (s s' s'' : conanfile) :
  configure s = (Ok (), s') →
  settings s'' = settings s' →
  settings s'' !! "compiler.cppstd" = None ∧
  truthy (settings s'' !! "compiler.cppstd") = false ∧
  ∀ min, EvCheckMinCppstd min ∉ added_events s'' (final (validate s'')).
Proof.
  intros Hconf Hsettings.
  assert (settings s'' !! "compiler.cppstd" = None) as Hnone.
  { rewrite Hsettings. by eapply configure_removes_cppstd. }
  split; [done|]. split; [by rewrite Hnone|].
  intros min. destruct (validate_without_cppstd_no_call s'' Hnone) as [_ ->].
  apply not_elem_of_nil.
Qed.

Lemma cppstd_check_unreachable_after_configure_witness :
  settings (fresh (profile_cppstd "Linux" "gcc" "11" "11") (user_options []))
    !! "compiler.cppstd" = Some "11" ∧
  outcome (configure (fresh (profile_cppstd "Linux" "gcc" "11" "11") (user_options []))) = Ok () ∧
  ∀ min, EvCheckMinCppstd min ∉
    added_events
      (final (configure (fresh (profile_cppstd "Linux" "gcc" "11" "11") (user_options []))))
      (final (validate (tools := dotted_tools)
                (final (configure (fresh (profile_cppstd "Linux" "gcc" "11" "11")
                                     (user_options [])))))).
Proof.
  split; [by vm_compute|]. split; [by vm_compute|].
  apply (cppstd_check_unreachable_after_configure (tools := dotted_tools)
           (fresh (profile_cppstd "Linux" "gcc" "11" "11") (user_options []))
           (final (configure (fresh (profile_cppstd "Linux" "gcc" "11" "11") (user_options []))))
           (final (configure (fresh (profile_cppstd "Linux" "gcc" "11" "11") (user_options []))))).
  - by vm_compute.
  - reflexivity.
Defined.

(** ** The IDL-compiler helper predicate *)

(** The class body has no [_has_idlc]. *)
Lemma _has_idlc_unbound : ("_has_idlc" ∉ class_names) ∧ helper_methods = [].
Proof. split; [apply (bool_decide_unpack _); by vm_compute | done]. Qed.

Lemma _has_idlc_run (line : nat) (s : conanfile) :
  _has_idlc line s = (Raise (Exc (AttributeError "_has_idlc") line), s).
Proof. reflexivity. Qed.

(** ** Build variables *)

(** What lines 122-135 do for a given value of the right-hand side of line
    122: every variable is forwarded, and the two generators run. *)
Lemma generate_from_run (idlc : bool) (s : conanfile) :
  generate_from new_toolchain idlc s =
    (Ok (),
     set_journal
       (λ j, j ++ [ EvToolchainGenerate
                      {| variables :=
                           list_to_map
                             [ ("BUILD_IDLC", idlc);
                               ("BUILD_IDLC_TESTING", false);
                               ("BUILD_DDSPERF", false);
                               ("ENABLE_SSL", with_ssl (options s));
                               ("ENABLE_SHM", with_shm (options s));
                               ("ENABLE_SECURITY", enable_security (options s));
                               ("ENABLE_TYPE_DISCOVERY", enable_discovery (options s));
                               ("ENABLE_TOPIC_DISCOVERY", enable_discovery (options s)) ];
                         cache_variables := {[ "ENABLE_LTO" := false ]} |};
                    EvCMakeDepsGenerate ])
       s).
Proof.
  unfold generate_from. do 6 step.
  unfold log, modify, set_journal. simpl. rewrite <- app_assoc. simpl.
  reflexivity.
Qed.

(** C4. For every recipe object generate stops at line 122, before any
    variable is assigned and before the toolchain is written: evaluating
    self._has_idlc raises AttributeError, since the class defines no such
    method. *)
Theorem generate_raises_AttributeError (s : conanfile) :
  generate s = (Raise (Exc (AttributeError "_has_idlc") 122), s) ∧
  added_events s (final (generate s)) = [].
Proof.
  assert (generate s = (Raise (Exc (AttributeError "_has_idlc") 122), s)) as Hrun.
  { unfold generate. by erewrite bind_raise by apply _has_idlc_run. }
  split; [done|]. rewrite Hrun. unfold added_events, final. simpl. apply drop_all.
Qed.

(** ** Components *)

(** Lines 161-178 return normally and leave a [ddsc] component whose library
    is ddsc, whose requirements have grown by the enabled optional
    dependencies, and whose system libraries follow the platform. *)
Lemma package_info_ddsc_run (s : conanfile) :
  ∃ s' c,
    package_info_ddsc s = (Ok (), s') ∧
    settings s' = settings s ∧ options s' = options s ∧ journal s' = journal s ∧
    package_folder s' = package_folder s ∧
    buildenv_info s' = buildenv_info s ∧ runenv_info s' = runenv_info s ∧
    components (cpp_info s') = <["ddsc" := c]> (components (cpp_info s)) ∧
    libs c = ["ddsc"] ∧
    properties c !! "cmake_target_name" = Some (PStr "CycloneDDS::ddsc") ∧
    requires c =
      requires (default new_component (components (cpp_info s) !! "ddsc"))
        ++ (if with_shm (options s) then ["iceoryx::iceoryx_binding_c"] else [])
        ++ (if with_ssl (options s) then ["openssl::openssl"] else []) ∧
    system_libs c =
      if bool_decide (settings s !! "os" = Some "Linux")
         || bool_decide (settings s !! "os" = Some "FreeBSD")
      then ["dl"; "pthread"]
      else if bool_decide (settings s !! "os" = Some "Windows")
           then ["ws2_32"; "dbghelp"; "bcrypt"; "iphlpapi"]
           else system_libs (default new_component (components (cpp_info s) !! "ddsc")).
Proof.
  destruct s as [st [sh pic ssl shm sec disc] sf pf reqs [props comps] be re j].
  unfold package_info_ddsc. do 6 step.
  unfold on_component, set_property, modify, set_cpp_info, when; simpl.
  destruct shm, ssl;
    unfold_monad; simpl;
    destruct (bool_decide (st !! "os" = Some "Linux") || bool_decide (st !! "os" = Some "FreeBSD"));
    simpl; try destruct (bool_decide (st !! "os" = Some "Windows")); simpl;
    eexists _, _; (split; [reflexivity|]); simpl;
    repeat (rewrite lookup_insert_eq; simpl);
    rewrite ?insert_insert_eq;
    (do 6 (split; [reflexivity|])); (split; [reflexivity|]); simpl;
    repeat split; try done; by rewrite ?lookup_insert_eq, ?app_nil_r, <- ?app_assoc.
Qed.

(** What the body of the [if] of line 181 does when it runs: an [idl]
    component with two build modules, and the bin directory of the package
    in front of PATH in both environments. *)
Lemma package_info_idl_run (s : conanfile) :
  ∃ s' c,
    package_info_idl s = (Ok (), s') ∧
    components (cpp_info s') = <["idl" := c]> (components (cpp_info s)) ∧
    libs c = ["cycloneddsidl"] ∧
    properties c !! "cmake_target_name" = Some (PStr "CycloneDDS::idl") ∧
    properties c !! "cmake_build_modules" =
      Some (PPaths [ ["lib"; "cmake"; "CycloneDDS"; "CycloneDDS_idlc.cmake"];
                     ["lib"; "cmake"; "CycloneDDS"; "idlc"; "Generate.cmake"] ]) ∧
    buildenv_info s' !! "PATH" =
      Some ((package_folder s ++ ["bin"]) :: default [] (buildenv_info s !! "PATH")) ∧
    runenv_info s' !! "PATH" =
      Some ((package_folder s ++ ["bin"]) :: default [] (runenv_info s !! "PATH")).
Proof.
  destruct s as [st o sf pf reqs [props comps] be re j].
  unfold package_info_idl. do 6 step.
  unfold on_component, modify, set_cpp_info, set_buildenv_info, set_runenv_info,
    prepend_path, os_path_join; simpl.
  eexists _, _. split; [reflexivity|]. simpl.
  repeat (rewrite lookup_insert_eq; simpl).
  rewrite ?insert_insert_eq.
  split; [reflexivity|]. simpl.
  repeat split; try done.
  - rewrite lookup_insert_ne by done. apply lookup_insert_eq.
  - apply lookup_insert_eq.
Qed.

(** C7. For every recipe object package_info sets up the ddsc component and
    then stops at line 181: evaluating self._has_idlc raises AttributeError,
    since the class defines no such method.  The idl component and the PATH
    entries are left as they were. *)
Theorem package_info_raises_AttributeError (s : conanfile) :
  outcome (package_info s) = Raise (Exc (AttributeError "_has_idlc") 181) ∧
  is_Some (components (cpp_info (final (package_info s))) !! "ddsc") ∧
  components (cpp_info (final (package_info s))) !! "idl" = components (cpp_info s) !! "idl" ∧
  buildenv_info (final (package_info s)) = buildenv_info s ∧
  runenv_info (final (package_info s)) = runenv_info s.
Proof.
  destruct (package_info_ddsc_run s)
    as (s' & c & Hrun & _ & _ & _ & _ & Hbuild & Hrunenv & Hcomps & _).
  unfold package_info. erewrite bind_ok by apply Hrun. cbn beta.
  erewrite bind_raise by apply _has_idlc_run.
  unfold outcome, final. simpl. rewrite Hcomps.
  split; [done|]. split; [by rewrite lookup_insert_eq|].
  split; [by rewrite lookup_insert_ne|]. done.
Qed.

(** * Further properties of the hooks *)

(** ** [validate] *)

(** X1. validate returns normally exactly when nothing in it objects: not
    security with static linking, a compiler that is set (line 102 needs
    one), no configured standard that check_min_cppstd rejects, and no
    compiler version below a table entry. *)
Theorem validate_accepts_iff {tools : ConanTools} (s : conanfile) :
  outcome (validate s) = Ok ()
  ↔ (enable_security (options s) = false ∨ shared (options s) = true) ∧
    is_Some (settings s !! "compiler") ∧
    cppstd_rejected s = false ∧
    compiler_too_old s = false.
Proof.
  rewrite validate_run. unfold outcome, security_static, compiler_unset.
  destruct (settings s !! "compiler") as [c|] eqn:Hc.
  - rewrite bool_decide_eq_false_2 by done.
    destruct (enable_security (options s)), (shared (options s)),
      (cppstd_rejected s), (compiler_too_old s); simpl;
      split; try done; try (intros ([?|?] & ? & ? & ?); done); eauto 6.
  - rewrite bool_decide_eq_true_2 by done.
    destruct (enable_security (options s)), (shared (options s)); simpl;
      split; try done; intros (_ & [? ?] & _); done.
Qed.


(** X3. validate changes nothing on the recipe object but the journal of
    helper calls, which it only extends. *)
Theorem validate_frame {tools : ConanTools} (s : conanfile) :
  settings (final (validate s)) = settings s ∧
  options (final (validate s)) = options s ∧
  declared_requires (final (validate s)) = declared_requires s ∧
  cpp_info (final (validate s)) = cpp_info s ∧
  buildenv_info (final (validate s)) = buildenv_info s ∧
  runenv_info (final (validate s)) = runenv_info s ∧
  journal s `prefix_of` journal (final (validate s)).
Proof.
  rewrite validate_run. unfold final, after_cppstd_check.
  destruct (security_static s), (compiler_unset s), (cppstd_rejected s),
    (compiler_too_old s), (truthy (settings s !! "compiler.cppstd")); simpl;
    repeat split; try done; by apply prefix_app_r.
Qed.

(** X4. When the security check fires, check_min_cppstd is not called and the
    compiler version is not looked at: the recipe object is left as it
    was, whatever the settings. *)
Theorem validate_security_stops_before_other_checks {tools : ConanTools} (s : conanfile) :
  enable_security (options s) = true →
  shared (options s) = false →
  validate s = (Raise (Exc (NameError "ConanInvalidConfiguration") line_security), s).
Proof.
  intros Hsec Hsh. rewrite validate_run. unfold security_static. by rewrite Hsec, Hsh.
Qed.

Lemma validate_security_stops_before_other_checks_witness :
  enable_security (user_options [("enable_security", true)]) = true ∧
  truthy (profile_cppstd "Linux" "gcc" "5" "11" !! "compiler.cppstd") = true ∧
  final (validate (tools := dotted_tools)
           (fresh (profile_cppstd "Linux" "gcc" "5" "11") (user_options [("enable_security", true)])))
    = fresh (profile_cppstd "Linux" "gcc" "5" "11") (user_options [("enable_security", true)]).
Proof.
  split; [by vm_compute|]. split; [by vm_compute|].
  by rewrite (validate_security_stops_before_other_checks (tools := dotted_tools)
                (fresh (profile_cppstd "Linux" "gcc" "5" "11")
                   (user_options [("enable_security", true)]))
                eq_refl eq_refl).
Defined.

Lemma validate_unknown_compiler_witness :
  _compilers_minimum_version !! py_str (profile "Linux" "intel-cc" "1" !! "compiler") = None ∧
  raised_line (outcome (validate (tools := dotted_tools)
                          (fresh (profile "Linux" "intel-cc" "1") (user_options []))))
    ≠ Some line_too_old.
Proof.
  split; [by vm_compute|].
  apply (validate_unknown_compiler (tools := dotted_tools)
           (fresh (profile "Linux" "intel-cc" "1") (user_options []))).
  by vm_compute.
Defined.

Lemma validate_calls_check_min_cppstd_witness :
  security_static (fresh (profile_cppstd "Linux" "gcc" "5" "17") (user_options [])) = false ∧
  raised_line (outcome (validate (tools := dotted_tools)
                          (fresh (profile_cppstd "Linux" "gcc" "5" "17") (user_options []))))
    = Some line_too_old ∧
  added_events (fresh (profile_cppstd "Linux" "gcc" "5" "17") (user_options []))
    (final (validate (tools := dotted_tools)
              (fresh (profile_cppstd "Linux" "gcc" "5" "17") (user_options []))))
    = [EvCheckMinCppstd _min_cppstd].
Proof.
  split; [by vm_compute|]. split; [by vm_compute|].
  apply (validate_calls_check_min_cppstd (tools := dotted_tools)
           (fresh (profile_cppstd "Linux" "gcc" "5" "17") (user_options [])));
    [by vm_compute | by vm_compute; eexists | by vm_compute].
Defined.

(** ** [config_options] and [configure] *)

(** X7. Starting from an options object that still has fPIC, config_options
    followed by configure returns normally exactly when the configuration is
    not Windows with shared=True; in that configuration configure raises at
    line 81, after fPIC is gone and before any setting is removed. *)
Theorem config_options_then_configure_returns_iff (s : conanfile) :
  is_Some (fPIC (options s)) →
  (outcome ((config_options ;; configure) s) = Ok ()
   ↔ ¬ (settings s !! "os" = Some "Windows" ∧ shared (options s) = true)) ∧
  (outcome ((config_options ;; configure) s) ≠ Ok () →
   outcome ((config_options ;; configure) s)
     = Raise (Exc (ConanException fPIC_not_exist) 81) ∧
   settings (final ((config_options ;; configure) s)) = settings s).
Proof.
  intros [b Hb].
  assert (Hdel : del_fPIC 76 s = (Ok (), final (del_fPIC 76 s))).
  { unfold del_fPIC, final. by rewrite Hb. }
  assert (Hkeep : settings (final (del_fPIC 76 s)) = settings s
                  ∧ fPIC (options (final (del_fPIC 76 s))) = None
                  ∧ shared (options (final (del_fPIC 76 s))) = shared (options s)).
  { unfold del_fPIC, final. by rewrite Hb. }
  destruct Hkeep as (Hst & Hpic & Hshared).
  destruct (decide (settings s !! "os" = Some "Windows")) as [Hos|Hos];
    destruct (shared (options s)) eqn:Hsh.
  - assert ((config_options ;; configure) s
            = (Raise (Exc (ConanException fPIC_not_exist) 81),
               final (del_fPIC 76 s))) as ->.
    { erewrite bind_ok
        by (rewrite config_options_run, (bool_decide_eq_true_2 _ Hos); apply Hdel).
      rewrite configure_run. by rewrite Hshared, Hpic. }
    unfold outcome, final. simpl.
    split; [split; [done | intros Hn; exfalso; by apply Hn]|]. done.
  - assert (outcome ((config_options ;; configure) s) = Ok ()) as ->.
    { erewrite bind_ok
        by (rewrite config_options_run, (bool_decide_eq_true_2 _ Hos); apply Hdel).
      rewrite configure_run. by rewrite Hshared. }
    split; [split; [intros _ [_ ?]; done | done]|]. done.
  - assert (outcome ((config_options ;; configure) s) = Ok ()) as ->.
    { erewrite bind_ok
        by (rewrite config_options_run, (bool_decide_eq_false_2 _ Hos); reflexivity).
      rewrite configure_run. by rewrite Hsh, Hb. }
    split; [split; [intros _ [? _]; done | done]|]. done.
  - assert (outcome ((config_options ;; configure) s) = Ok ()) as ->.
    { erewrite bind_ok
        by (rewrite config_options_run, (bool_decide_eq_false_2 _ Hos); reflexivity).
      rewrite configure_run. by rewrite Hsh. }
    split; [split; [intros _ [_ ?]; done | done]|]. done.
Qed.

Lemma config_options_then_configure_returns_iff_witness :
  is_Some (fPIC (options (fresh (profile "Windows" "msvc" "193") (user_options [("shared", true)])))) ∧
  outcome ((config_options ;; configure)
             (fresh (profile "Windows" "msvc" "193") (user_options [("shared", true)])))
    = Raise (Exc (ConanException fPIC_not_exist) 81) ∧
  settings (final ((config_options ;; configure)
                     (fresh (profile "Windows" "msvc" "193") (user_options [("shared", true)]))))
    = profile "Windows" "msvc" "193".
Proof.
  split; [by vm_compute; eexists|].
  apply (config_options_then_configure_returns_iff
           (fresh (profile "Windows" "msvc" "193") (user_options [("shared", true)])));
    [by vm_compute; eexists | by vm_compute].
Defined.

(** X8. When configure returns, it has removed compiler.libcxx and
    compiler.cppstd and no other setting, and of the options it has changed
    at most fPIC, which is gone iff shared is true. *)
Theorem configure_effect (s s' : conanfile) :
  configure s = (Ok (), s') →
  settings s' !! "compiler.libcxx" = None ∧
  settings s' !! "compiler.cppstd" = None ∧
  (∀ key, key ≠ "compiler.libcxx" → key ≠ "compiler.cppstd" →
          settings s' !! key = settings s !! key) ∧
  fPIC (options s') = (if shared (options s) then None else fPIC (options s)) ∧
  shared (options s') = shared (options s) ∧
  with_ssl (options s') = with_ssl (options s) ∧
  with_shm (options s') = with_shm (options s) ∧
  enable_security (options s') = enable_security (options s) ∧
  enable_discovery (options s') = enable_discovery (options s).
Proof.
  rewrite configure_run.
  destruct (shared (options s)) eqn:Hsh.
  - unfold del_fPIC, final. destruct (fPIC (options s)) eqn:Hpic; [|done].
    intros [= <-]. simpl.
    split; [by rewrite lookup_delete_ne, lookup_delete_eq|].
    split; [apply lookup_delete_eq|].
    split; [intros key ? ?; by rewrite !lookup_delete_ne|]. done.
  - intros [= <-]. simpl.
    split; [by rewrite lookup_delete_ne, lookup_delete_eq|].
    split; [apply lookup_delete_eq|].
    split; [intros key ? ?; by rewrite !lookup_delete_ne|].
    by rewrite Hsh.
Qed.

Lemma configure_effect_witness :
  configure (fresh (profile_cppstd "Linux" "gcc" "11" "17") (user_options [("shared", true)]))
    = (Ok (), final (configure (fresh (profile_cppstd "Linux" "gcc" "11" "17")
                                  (user_options [("shared", true)])))) ∧
  settings (final (configure (fresh (profile_cppstd "Linux" "gcc" "11" "17")
                                (user_options [("shared", true)]))))
    !! "compiler.version" = Some "11".
Proof.
  split; [by vm_compute|].
  destruct (configure_effect
              (fresh (profile_cppstd "Linux" "gcc" "11" "17") (user_options [("shared", true)]))
              (final (configure (fresh (profile_cppstd "Linux" "gcc" "11" "17")
                                   (user_options [("shared", true)])))))
    as (_ & _ & Hother & _); [by vm_compute|].
  by rewrite Hother.
Defined.

(** X9. In a run where configure has returned, validate cannot raise a
    ConanInvalidConfiguration at all: whenever it fails, it fails with the
    NameError of one of its two raise statements or, when no compiler is
    set, with the ConanException of line 102. *)
Theorem validate_after_configure_never_ConanInvalidConfiguration
    {tools : ConanTools} (s s' : conanfile) (e : exception) :
  configure s = (Ok (), s') →
  outcome (validate s') = Raise e →
  (∀ msg, exc_what e ≠ ConanInvalidConfiguration msg) ∧
  ((exc_what e = NameError "ConanInvalidConfiguration" ∧
    (exc_line e = line_security ∨ exc_line e = line_too_old))
   ∨ (e = Exc (ConanException "'settings.compiler' value not defined") line_get_safe ∧
      settings s' !! "compiler" = None ∧
      (enable_security (options s') = false ∨ shared (options s') = true))).
Proof.
  intros Hconf. apply configure_removes_cppstd in Hconf.
  rewrite validate_run. unfold cppstd_rejected, outcome. rewrite Hconf.
  unfold security_static, compiler_unset.
  destruct (enable_security (options s')), (shared (options s')); simpl;
    try (intros [= <-]; simpl; (split; [done|]); left; auto; done);
    (case_bool_decide as Hc;
     [intros [= <-]; simpl; (split; [done|]); right; auto
     |destruct (compiler_too_old s'); simpl;
      [intros [= <-]; simpl; (split; [done|]); left; auto | done]]).
Qed.

Lemma validate_after_configure_never_ConanInvalidConfiguration_witness :
  outcome (validate (tools := dotted_tools)
             (fresh (profile_cppstd "Linux" "gcc" "5" "11") (user_options [])))
    = Raise (Exc (ConanInvalidConfiguration (cppstd_too_low "11" "14")) line_cppstd) ∧
  outcome (validate (tools := dotted_tools)
             (final (configure (fresh (profile_cppstd "Linux" "gcc" "5" "11") (user_options [])))))
    = Raise (Exc (NameError "ConanInvalidConfiguration") line_too_old) ∧
  ∀ msg, exc_what (Exc (NameError "ConanInvalidConfiguration") line_too_old)
         ≠ ConanInvalidConfiguration msg.
Proof.
  split; [by vm_compute|]. split; [by vm_compute|].
  apply (validate_after_configure_never_ConanInvalidConfiguration (tools := dotted_tools)
           (fresh (profile_cppstd "Linux" "gcc" "5" "11") (user_options []))
           (final (configure (fresh (profile_cppstd "Linux" "gcc" "5" "11") (user_options []))))
           (Exc (NameError "ConanInvalidConfiguration") line_too_old)); by vm_compute.
Defined.

(** ** [package] *)

(** X10. package deletes only inside the package folder: every directory or
    glob removal it performs is on a folder below package_folder, on every
    platform; the source folder is only read by the licence copy. *)
Theorem package_removes_only_inside_package_folder (s : conanfile) :
  Forall (λ ev, ∀ folder, removal_folder ev = Some folder →
                          package_folder s `prefix_of` folder)
         (added_events s (final (package s))).
Proof.
  rewrite package_run. unfold final, added_events. simpl.
  rewrite drop_app_length.
  repeat (apply Forall_cons; split;
          [simpl; intros folder Hf; try discriminate Hf;
           injection Hf as <-; by apply prefix_app_r|]).
  case_bool_decide; [|constructor].
  repeat (apply Forall_cons; split;
          [simpl; intros folder Hf; injection Hf as <-; by apply prefix_app_r|]).
  constructor.
Qed.


(** ** [package_info] *)

Lemma package_info_final (s : conanfile) :
  final (package_info s) = final (package_info_ddsc s).
Proof.
  destruct (package_info_ddsc_run s) as (s' & c & Hrun & _).
  unfold package_info. erewrite bind_ok by apply Hrun. cbn beta.
  erewrite bind_raise by apply _has_idlc_run.
  by rewrite Hrun.
Qed.

(** X12. On a recipe object without a ddsc component yet, package_info leaves
    one whose library is ddsc and whose system libraries are dl and pthread
    on Linux and FreeBSD, the four Windows libraries on Windows, and none on
    any other platform. *)
Theorem package_info_ddsc_system_libs (s : conanfile) :
  components (cpp_info s) !! "ddsc" = None →
  ∃ c,
    components (cpp_info (final (package_info s))) !! "ddsc" = Some c ∧
    libs c = ["ddsc"] ∧
    (settings s !! "os" = Some "Linux" ∨ settings s !! "os" = Some "FreeBSD"
       → system_libs c = ["dl"; "pthread"]) ∧
    (settings s !! "os" = Some "Windows"
       → system_libs c = ["ws2_32"; "dbghelp"; "bcrypt"; "iphlpapi"]) ∧
    (settings s !! "os" ≠ Some "Linux" → settings s !! "os" ≠ Some "FreeBSD" →
     settings s !! "os" ≠ Some "Windows" → system_libs c = []).
Proof.
  intros Hfresh. rewrite package_info_final.
  destruct (package_info_ddsc_run s)
    as (s' & c & Hrun & _ & _ & _ & _ & _ & _ & Hcomps & Hlibs & _ & _ & Hsys).
  rewrite Hrun. unfold final. simpl. rewrite Hcomps, lookup_insert_eq.
  exists c. split; [done|]. split; [done|].
  rewrite Hsys, Hfresh. simpl.
  split; [|split].
  - intros [Hos | Hos]; rewrite Hos; by vm_compute.
  - intros Hos; rewrite Hos; by vm_compute.
  - intros Hl Hf Hw.
    by rewrite (bool_decide_eq_false_2 _ Hl), (bool_decide_eq_false_2 _ Hf),
      (bool_decide_eq_false_2 _ Hw).
Qed.

Lemma package_info_ddsc_system_libs_witness :
  components (cpp_info (fresh (profile "Macos" "apple-clang" "15") (user_options []))) !! "ddsc"
    = None ∧
  ∃ c,
    components (cpp_info (final (package_info
      (fresh (profile "Macos" "apple-clang" "15") (user_options []))))) !! "ddsc" = Some c ∧
    system_libs c = [].
Proof.
  split; [by vm_compute|].
  destruct (package_info_ddsc_system_libs
              (fresh (profile "Macos" "apple-clang" "15") (user_options [])))
    as (c & Hc & _ & _ & _ & Hother); [by vm_compute|].
  exists c. split; [exact Hc|]. apply Hother; by vm_compute.
Defined.

(** X13. The component requirements agree with the declared requirements:
    on a fresh recipe object, after requirements and package_info the ddsc
    component requires, in the same order, a component of exactly each
    package that requirements declared. *)
Theorem component_requires_match_requirements (s : conanfile) :
  components (cpp_info s) !! "ddsc" = None →
  declared_requires s = [] →
  ∃ c,
    components (cpp_info (final (package_info (final (requirements s))))) !! "ddsc" = Some c ∧
    component_package <$> requires c
      = ref_name <$> declared_requires (final (requirements s)).
Proof.
  intros Hfresh Hnone. rewrite package_info_final, requirements_run.
  unfold final at 2 3. simpl.
  destruct (package_info_ddsc_run
              (set_declared_requires
                 (λ l, (l ++ (if with_shm (options s) then ["iceoryx/2.0.5"] else []))
                         ++ (if with_ssl (options s) then ["openssl/[>=1.1 <4]"] else [])) s))
    as (s' & c & Hrun & _ & _ & _ & _ & _ & _ & Hcomps & _ & _ & Hreq & _).
  rewrite Hrun. unfold final. simpl in *. rewrite Hcomps, lookup_insert_eq.
  exists c. split; [done|].
  rewrite Hreq, Hfresh, Hnone. simpl.
  by destruct (with_shm (options s)), (with_ssl (options s)).
Qed.

Lemma component_requires_match_requirements_witness :
  components (cpp_info (fresh (profile "Linux" "gcc" "11")
                          (user_options [("with_shm", true); ("with_ssl", true)]))) !! "ddsc"
    = None ∧
  ∃ c,
    components (cpp_info (final (package_info (final (requirements
      (fresh (profile "Linux" "gcc" "11")
         (user_options [("with_shm", true); ("with_ssl", true)]))))))) !! "ddsc" = Some c ∧
    component_package <$> requires c = ["iceoryx"; "openssl"].
Proof.
  split; [by vm_compute|].
  destruct (component_requires_match_requirements
              (fresh (profile "Linux" "gcc" "11")
                 (user_options [("with_shm", true); ("with_ssl", true)])))
    as (c & Hc & Hreq); [by vm_compute | by vm_compute |].
  exists c. split; [exact Hc|]. rewrite Hreq. by vm_compute.
Defined.

(** ** [generate] *)

(** X14. Lines 122-135, for any toolchain object and any value of the
    right-hand side of line 122: the eight assigned variables get their
    values, with the two discovery variables always equal; every other
    variable of the toolchain is left alone; ENABLE_LTO is written to the
    cache variables only; and the toolchain is written before the
    dependency files. *)
Theorem generate_from_forwards (tc : CMakeToolchain) (idlc : bool) (s : conanfile) :
  ∃ tc',
    generate_from tc idlc s
      = (Ok (), set_journal (λ j, j ++ [EvToolchainGenerate tc'; EvCMakeDepsGenerate]) s) ∧
    (variables tc' !! "BUILD_IDLC" = Some idlc ∧
     variables tc' !! "BUILD_IDLC_TESTING" = Some false ∧
     variables tc' !! "BUILD_DDSPERF" = Some false ∧
     variables tc' !! "ENABLE_SSL" = Some (with_ssl (options s)) ∧
     variables tc' !! "ENABLE_SHM" = Some (with_shm (options s)) ∧
     variables tc' !! "ENABLE_SECURITY" = Some (enable_security (options s)) ∧
     variables tc' !! "ENABLE_TYPE_DISCOVERY" = Some (enable_discovery (options s)) ∧
     variables tc' !! "ENABLE_TOPIC_DISCOVERY" = variables tc' !! "ENABLE_TYPE_DISCOVERY") ∧
    (∀ k, k ∉ forwarded_variables → variables tc' !! k = variables tc !! k) ∧
    cache_variables tc' = <["ENABLE_LTO" := false]> (cache_variables tc).
Proof.
  eexists. split.
  - unfold generate_from. do 6 step.
    unfold log, modify, set_journal. simpl. rewrite <- app_assoc. reflexivity.
  - unfold set_cache_variable, set_variable. simpl.
    split; [repeat split; by simplify_map_eq|].
    split; [|done].
    intros k Hk. unfold forwarded_variables in Hk.
    repeat (rewrite lookup_insert_ne; [|intros <-; apply Hk; set_solver]). done.
Qed.
